(** * FineFundamentalDataRegressionAlgorithm

    A shallow embedding of
    [Algorithm.Python/FineFundamentalDataRegressionAlgorithm.py]: the three
    callbacks [Initialize], [OnData] and [OnEndOfAlgorithm] of the regression
    algorithm, written in a small monad that threads the instance's attribute
    dictionary, logs the calls made on the algorithm object and propagates
    Python exceptions. *)

From Stdlib Require Import ZArith PrimFloat.
From stdpp Require Import base option list strings gmap.

Local Open Scope string_scope.
Local Open Scope Z_scope.

(** ** Host data, as the script sees it *)

(** A symbol: its identifier and, for a symbol derived from another one (the
    symbol of a custom-data subscription), the symbol it was derived from. *)
#[local] Unset Elimination Schemes.
Inductive Symbol : Type :=
| Sym (ID : string) (under : option Symbol).
#[local] Set Elimination Schemes.

Definition Underlying (s : Symbol) : option Symbol :=
  match s with Sym _ u => u end.

Fixpoint Symbol_eqb (a b : Symbol) : bool :=
  match a, b with
  | Sym i u, Sym j v =>
      String.eqb i j &&
      match u, v with
      | Some x, Some y => Symbol_eqb x y
      | None, None => true
      | _, _ => false
      end
  end.

(** [x == y] where [x] is a symbol and [y] is a symbol or [None]. *)
Definition opt_Symbol_eqb (a b : option Symbol) : bool :=
  match a, b with
  | Some x, Some y => Symbol_eqb x y
  | None, None => true
  | _, _ => false
  end.

Inductive Resolution : Type := Tick | Second | Minute | Hour | Daily.

(** The type tag handed to [AddData], [History], [Get] and [GetData]. *)
Inductive DataType : Type := FineFundamental.

Record MultiPeriodField : Type := { OneYear : float }.
Record EarningRatiosT : Type := { EquityPerShareGrowth : MultiPeriodField }.
(** A fine-fundamental record; only the path the script reads is kept. *)
Record FineFundamentalData : Type := { EarningRatios : EarningRatiosT }.

Record Security : Type := { Symbol_ : Symbol }.

(** ** Python values, exceptions and the algorithm monad *)

Inductive PyVal : Type :=
| VBool (b : bool)
| VSecurity (s : Security).

Definition truthy (v : PyVal) : bool :=
  match v with
  | VBool b => b
  | VSecurity _ => true
  end.

Inductive PyError : Type :=
| ValueError (msg : string)
| AttributeError (name : string).

(** Calls made on the algorithm object itself. *)
Inductive HostCall : Type :=
| SetStartDate (y m d : Z)
| SetEndDate (y m d : Z)
| AddEquity (ticker : string) (r : Resolution)
| AddData (ty : DataType) (s : Symbol)
| History (ty : DataType) (s : Symbol) (periods : Z)
| SetHoldings (ticker : string) (fraction : Z).

Inductive Outcome (A : Type) : Type :=
| Ok (a : A)
| Raise (e : PyError).
Arguments Ok {A} a.
Arguments Raise {A} e.

(** The result of running a piece of the script: how it ended, the
    attribute dictionary of [self] afterwards (kept when an exception
    propagates), and the calls it made, oldest first. *)
Record Run (A : Type) : Type :=
  mkRun { outcome : Outcome A; attrs : gmap string PyVal; calls : list HostCall }.
Arguments mkRun {A} outcome attrs calls.
Arguments outcome {A} r.
Arguments attrs {A} r.
Arguments calls {A} r.

Definition M (A : Type) : Type := gmap string PyVal -> Run A.

Definition ret {A} (a : A) : M A := fun d => mkRun (Ok a) d [].

Definition bind {A B} (c : M A) (k : A -> M B) : M B :=
  fun d =>
    let r := c d in
    match outcome r with
    | Ok a => let r' := k a (attrs r) in
              mkRun (outcome r') (attrs r') (calls r ++ calls r')
    | Raise e => mkRun (Raise e) (attrs r) (calls r)
    end.

Declare Scope py_scope.
Delimit Scope py_scope with py.
Notation "x <- c ;; k" := (bind c (fun x => k))
  (at level 100, c at next level, right associativity) : py_scope.
Notation "c ;;; k" := (bind c (fun _ => k))
  (at level 100, right associativity) : py_scope.
Local Open Scope py_scope.

Definition raise {A} (e : PyError) : M A := fun d => mkRun (Raise e) d [].

(** [self.name] *)
Definition getattr (name : string) : M PyVal :=
  fun d =>
    match d !! name with
    | Some v => mkRun (Ok v) d []
    | None => mkRun (Raise (AttributeError name)) d []
    end.

(** [self.name = v] *)
Definition setattr (name : string) (v : PyVal) : M unit :=
  fun d => mkRun (Ok tt) (<[name := v]> d) [].

(** [v.field] for a field that only a security has. *)
Definition member (field : string) (v : PyVal) : M Security :=
  match v with
  | VSecurity s => ret s
  | VBool _ => raise (AttributeError field)
  end.

Definition emit (c : HostCall) : M unit := fun d => mkRun (Ok tt) d [c].

(** What the platform answers to the calls of [Initialize]. *)
Record Host : Type := {
  AddEquity_result : string -> Resolution -> Security;
  AddData_result : DataType -> Symbol -> Security;
  History_result : DataType -> Symbol -> Z -> list FineFundamentalData
}.

(** One data event: the slice handed to [OnData] and what the platform's
    portfolio and security cache answer while the handler runs. *)
Record Event : Type := {
  Get : DataType -> list (Symbol * FineFundamentalData);
  Portfolio_Invested : bool;
  Cache_GetData : Security -> DataType -> option FineFundamentalData
}.

(** The float literal [0.01]. *)
Definition threshold : float := 0x1.47ae147ae147bp-7%float.

(** ** The script *)

Definition Initialize (h : Host) : M unit :=
  emit (SetStartDate 2014 6 5) ;;;
  emit (SetEndDate 2014 6 10) ;;;
  emit (AddEquity "AAPL" Minute) ;;;
  setattr "_aaplSecurity" (VSecurity (AddEquity_result h "AAPL" Minute)) ;;;
  v <- getattr "_aaplSecurity" ;;
  aapl <- member "Symbol" v ;;
  emit (AddData FineFundamental (Symbol_ aapl)) ;;;
  let fine := AddData_result h FineFundamental (Symbol_ aapl) in
  emit (History FineFundamental (Symbol_ fine) 10) ;;;
  let history := History_result h FineFundamental (Symbol_ fine) 10 in
  if (Z.of_nat (length history) =? 0)%Z
  then raise (ValueError "Did not get any historical fine data!")
  else ret tt.

(** [sym in [k.Underlying for k in keys]] *)
Definition in_underlyings (sym : Symbol) (keys : list Symbol) : bool :=
  existsb (fun u => opt_Symbol_eqb (Some sym) u) (map Underlying keys).

Definition OnData (data : Event) : M unit :=
  let fine := Get data FineFundamental in
  c <- (if (0 <? Z.of_nat (length fine))%Z
        then v <- getattr "_aaplSecurity" ;;
             aapl <- member "Symbol" v ;;
             ret (in_underlyings (Symbol_ aapl) (map fst fine))
        else ret false) ;;
  (if c then setattr "_gotFineData" (VBool true) else ret tt) ;;;
  if negb (Portfolio_Invested data)
  then v <- getattr "_aaplSecurity" ;;
       aapl <- member "Cache" v ;;
       match Cache_GetData data aapl FineFundamental with
       | Some cachedFine =>
           if PrimFloat.ltb threshold
                (OneYear (EquityPerShareGrowth (EarningRatios cachedFine)))
           then emit (SetHoldings "AAPL" 1)
           else ret tt
       | None => ret tt
       end
  else ret tt.

Definition OnEndOfAlgorithm : M unit :=
  v <- getattr "_gotFineData" ;;
  if negb (truthy v)
  then raise (ValueError "Did not get any fine data in OnData!")
  else ret tt.

(** ** The run of a backtest *)

(** [OnData] for each event in turn; an exception ends the run. *)
Fixpoint OnData_all (evs : list Event) : M unit :=
  match evs with
  | [] => ret tt
  | data :: rest => OnData data ;;; OnData_all rest
  end.

(** Modelled from the spec: the platform's event loop, which is not part of
    the script. Section 5 of the specification: the host invokes
    [Initialize], then [OnData] once per event in order, then
    [OnEndOfAlgorithm], and an exception of a callback aborts the run. *)
Definition backtest (h : Host) (evs : list Event) : M unit :=
  Initialize h ;;; OnData_all evs ;;; OnEndOfAlgorithm.

(** A callback of the script, and the attribute dictionary left behind by a
    sequence of callbacks invoked in any order, whether they raise or not. *)
Inductive Callback : Type :=
| CbInitialize (h : Host)
| CbOnData (data : Event)
| CbOnEndOfAlgorithm.

Definition invoke (cb : Callback) : M unit :=
  match cb with
  | CbInitialize h => Initialize h
  | CbOnData data => OnData data
  | CbOnEndOfAlgorithm => OnEndOfAlgorithm
  end.

Definition attrs_after (cbs : list Callback) (d : gmap string PyVal)
  : gmap string PyVal :=
  fold_left (fun d cb => attrs (invoke cb d)) cbs d.

(** ** Vocabulary of the statements *)

(** The security [Initialize] subscribes and the result of its history
    request, for a given platform. *)
Definition subscribed (h : Host) : Security := AddEquity_result h "AAPL" Minute.

Definition requested_history (h : Host) : list FineFundamentalData :=
  let fine := AddData_result h FineFundamental (Symbol_ (subscribed h)) in
  History_result h FineFundamental (Symbol_ fine) 10.

(** The slice carries a fine-fundamental entry whose key derives from [sym]. *)
Definition has_fine_for (sym : Symbol) (data : Event) : Prop :=
  exists k v, (k, v) ∈ Get data FineFundamental /\ Underlying k = Some sym.

(** The same, as the script computes it. *)
Definition fine_seen (sym : Symbol) (data : Event) : bool :=
  let fine := Get data FineFundamental in
  (0 <? Z.of_nat (length fine))%Z && in_underlyings sym (map fst fine).

Definition ratio (f : FineFundamentalData) : float :=
  OneYear (EquityPerShareGrowth (EarningRatios f)).

(** The cached record exists and its ratio is strictly above the threshold. *)
Definition growth_above_threshold (data : Event) (sec : Security) : bool :=
  match Cache_GetData data sec FineFundamental with
  | Some cachedFine => PrimFloat.ltb threshold (ratio cachedFine)
  | None => false
  end.

(** Two events that the script cannot tell apart, for the security [sec]:
    the same fine-fundamental entries, in whatever order the collection
    enumerates them, the same invested answer and the same cached record of
    [sec]. What the cache holds for other securities is free. *)
Definition same_event (sec : Security) (e1 e2 : Event) : Prop :=
  Get e1 FineFundamental ≡ₚ Get e2 FineFundamental /\
  Portfolio_Invested e1 = Portfolio_Invested e2 /\
  Cache_GetData e1 sec FineFundamental = Cache_GetData e2 sec FineFundamental.

(** The calls of [Initialize], in order. *)
Definition setup_calls (h : Host) : list HostCall :=
  [SetStartDate 2014 6 5; SetEndDate 2014 6 10; AddEquity "AAPL" Minute;
   AddData FineFundamental (Symbol_ (subscribed h));
   History FineFundamental
     (Symbol_ (AddData_result h FineFundamental (Symbol_ (subscribed h)))) 10].

(** The calls of one [OnData] for the security [sec]. *)
Definition event_calls (sec : Security) (data : Event) : list HostCall :=
  if negb (Portfolio_Invested data) && growth_above_threshold data sec
  then [SetHoldings "AAPL" 1] else [].

(** [OnData] places an order at this event, for the security [sec]. *)
Definition places_order (sec : Security) (data : Event) : bool :=
  negb (Portfolio_Invested data) && growth_above_threshold data sec.

Definition is_SetHoldings (c : HostCall) : bool :=
  match c with SetHoldings _ _ => true | _ => false end.

Definition directives {A} (r : Run A) : list HostCall :=
  filter (fun c => is_SetHoldings c = true) (calls r).

Definition flag {A} (r : Run A) : option PyVal := attrs r !! "_gotFineData".

(** ** Sample platform and events *)

Definition record_with (x : float) : FineFundamentalData :=
  {| EarningRatios := {| EquityPerShareGrowth := {| OneYear := x |} |} |}.

Definition host0 : Host := {|
  AddEquity_result := fun t _ => {| Symbol_ := Sym t None |};
  AddData_result := fun _ s => {| Symbol_ := Sym "AAPL.FineFundamental" (Some s) |};
  History_result := fun _ _ _ => [record_with 0.5%float]
|}.

(** A second platform: the equity and history of [host0], another symbol
    for the fine subscription. *)
Definition host1 : Host := {|
  AddEquity_result := AddEquity_result host0;
  AddData_result := fun _ s => {| Symbol_ := Sym "fine" (Some s) |};
  History_result := History_result host0
|}.

Definition aapl0 : Security := subscribed host0.
Definition fine0 : Symbol := Sym "AAPL.FineFundamental" (Some (Symbol_ aapl0)).

(** An event with the given fine entries, invested answer and cached ratio. *)
Definition event0 (fine : list (Symbol * FineFundamentalData)) (inv : bool)
    (cached : option float) : Event := {|
  Get := fun _ => fine;
  Portfolio_Invested := inv;
  Cache_GetData := fun _ _ => option_map record_with cached
|}.

Definition msft_fine : Symbol := Sym "MSFT.FineFundamental" (Some (Sym "MSFT" None)).

(** A run in which fine data arrives, but never for the subscribed equity. *)
Definition quiet_events : list Event :=
  [event0 [] false None;
   event0 [(msft_fine, record_with 0.5%float)] false (Some 0.5%float)].

(** One event delivered twice: the second time the collection enumerates its
    entries in another order and the cache answers only for the subscribed
    equity. *)
Definition replay_a : Event := {|
  Get := fun _ => [(fine0, record_with 0.5%float);
                   (msft_fine, record_with 0.5%float)];
  Portfolio_Invested := false;
  Cache_GetData := fun _ _ => Some (record_with 0.5%float)
|}.

Definition replay_b : Event := {|
  Get := fun _ => [(msft_fine, record_with 0.5%float);
                   (fine0, record_with 0.5%float)];
  Portfolio_Invested := false;
  Cache_GetData := fun s _ =>
    if Symbol_eqb (Symbol_ s) (Symbol_ aapl0)
    then Some (record_with 0.5%float) else None
|}.

Definition started : gmap string PyVal := attrs (Initialize host0 ∅).

(** ** Symbols *)

Lemma Symbol_ind (P : Symbol -> Prop) :
  (forall i, P (Sym i None)) ->
  (forall i s, P s -> P (Sym i (Some s))) ->
  forall s, P s.
Proof.
  intros Hleaf Hnode. fix IH 1.
  intros [i [s|]]; [apply Hnode, IH | apply Hleaf].
Qed.

Lemma Symbol_eqb_refl (a : Symbol) : Symbol_eqb a a = true.
Proof.
  induction a as [i | i s IH] using Symbol_ind; simpl;
    rewrite String.eqb_refl; simpl; auto.
Qed.

Lemma Symbol_eqb_eq (a b : Symbol) : Symbol_eqb a b = true <-> a = b.
Proof.
  split; [| intros ->; apply Symbol_eqb_refl].
  revert b. induction a as [i | i s IH] using Symbol_ind;
    intros [j [t|]]; simpl; intros H;
    apply andb_true_iff in H as [Hi Hu]; apply String.eqb_eq in Hi;
    subst; try discriminate; [reflexivity |].
  apply IH in Hu. subst. reflexivity.
Qed.

Lemma in_underlyings_spec (sym : Symbol) (keys : list Symbol) :
  in_underlyings sym keys = true <->
  exists k, k ∈ keys /\ Underlying k = Some sym.
Proof.
  unfold in_underlyings. rewrite existsb_exists. split.
  - intros (u & Hin & Heq). apply in_map_iff in Hin as (k & <- & Hk).
    exists k. split; [apply list_elem_of_In, Hk |].
    destruct (Underlying k) as [s|]; simpl in Heq; [| discriminate].
    apply Symbol_eqb_eq in Heq. congruence.
  - intros (k & Hk & Hu). exists (Underlying k). split.
    + apply in_map, list_elem_of_In, Hk.
    + rewrite Hu. simpl. apply Symbol_eqb_refl.
Qed.

Lemma fine_seen_spec (sym : Symbol) (data : Event) :
  fine_seen sym data = true <-> has_fine_for sym data.
Proof.
  unfold fine_seen, has_fine_for.
  rewrite andb_true_iff, in_underlyings_spec. split.
  - intros (_ & k & Hk & Hu). apply list_elem_of_fmap in Hk as ([k' v] & -> & Hin).
    exists k', v. auto.
  - intros (k & v & Hin & Hu). split.
    + destruct (Get data FineFundamental); [inversion Hin | reflexivity].
    + exists k. split; [| exact Hu].
      apply list_elem_of_fmap. exists (k, v). auto.
Qed.

(** ** What each callback does *)

Lemma Initialize_run (h : Host) (d : gmap string PyVal) :
  Initialize h d =
  mkRun
    (if (Z.of_nat (length (requested_history h)) =? 0)%Z
     then Raise (ValueError "Did not get any historical fine data!")
     else Ok tt)
    (<["_aaplSecurity" := VSecurity (subscribed h)]> d)
    (setup_calls h).
Proof.
  unfold Initialize, requested_history, setup_calls, subscribed, bind, emit,
    setattr, getattr.
  cbn [outcome attrs calls]. rewrite lookup_insert_eq.
  cbn [outcome attrs calls member ret app].
  destruct (Z.of_nat _ =? 0)%Z; reflexivity.
Qed.

(** With [_aaplSecurity] bound to a security, [OnData] returns normally. *)
Lemma OnData_run (data : Event) (d : gmap string PyVal) (sec : Security) :
  d !! "_aaplSecurity" = Some (VSecurity sec) ->
  OnData data d =
  mkRun (Ok tt)
    (if fine_seen (Symbol_ sec) data then <["_gotFineData" := VBool true]> d else d)
    (event_calls sec data).
Proof.
  intros Hsec. unfold event_calls.
  assert (Hsec' : <["_gotFineData" := VBool true]> d !! "_aaplSecurity"
                  = Some (VSecurity sec))
    by (rewrite lookup_insert_ne; [exact Hsec | discriminate]).
  unfold OnData, fine_seen, growth_above_threshold, ratio, bind.
  destruct (0 <? Z.of_nat (length (Get data FineFundamental)))%Z;
    cbn [andb]; unfold getattr; rewrite ?Hsec;
    cbn [outcome attrs calls member ret app setattr];
    [destruct (in_underlyings _ _) |];
    cbn [outcome attrs calls member ret app setattr];
    destruct (Portfolio_Invested data); cbn [negb andb];
    cbn [outcome attrs calls member ret app setattr];
    rewrite ?Hsec', ?Hsec; cbn [outcome attrs calls member ret app setattr];
    try reflexivity;
    (destruct (Cache_GetData data sec FineFundamental) as [f|];
     [destruct (PrimFloat.ltb threshold _) |]; reflexivity).
Qed.

(** Without a security in [_aaplSecurity], [OnData] changes no attribute
    and makes no call. *)
Lemma OnData_unbound (data : Event) (d : gmap string PyVal) :
  (forall sec, d !! "_aaplSecurity" <> Some (VSecurity sec)) ->
  attrs (OnData data d) = d /\ calls (OnData data d) = [].
Proof.
  intros Hno. unfold OnData, bind, getattr.
  destruct (d !! "_aaplSecurity") as [[b|sec]|] eqn:Hd;
    [| exfalso; apply (Hno sec); reflexivity |];
    destruct (0 <? Z.of_nat (length (Get data FineFundamental)))%Z;
    cbn [outcome attrs calls member ret raise app setattr]; auto;
    destruct (negb (Portfolio_Invested data));
    cbn [outcome attrs calls member ret raise app setattr];
    rewrite ?Hd; cbn [outcome attrs calls member ret raise app setattr]; auto.
Qed.

(** Whatever the attribute dictionary, [OnData] keeps every attribute but
    [_gotFineData], which it leaves alone or sets to [True]. *)
Lemma OnData_attrs (data : Event) (d : gmap string PyVal) :
  attrs (OnData data d) = d \/
  attrs (OnData data d) = <["_gotFineData" := VBool true]> d.
Proof.
  destruct (d !! "_aaplSecurity") as [[b|sec]|] eqn:Hd.
  - left. apply OnData_unbound. congruence.
  - rewrite (OnData_run data d sec Hd). cbn [attrs].
    destruct (fine_seen _ _); auto.
  - left. apply OnData_unbound. congruence.
Qed.

(** Whatever the attribute dictionary, the only call [OnData] can make is
    one [SetHoldings("AAPL", 1)], made when the portfolio is not invested and
    the cached record of the security in [_aaplSecurity] is above the
    threshold. *)
Lemma OnData_calls (data : Event) (d : gmap string PyVal) :
  calls (OnData data d) =
  match d !! "_aaplSecurity" with
  | Some (VSecurity sec) => event_calls sec data
  | _ => []
  end.
Proof.
  destruct (d !! "_aaplSecurity") as [[b|sec]|] eqn:Hd.
  - apply OnData_unbound. congruence.
  - rewrite (OnData_run data d sec Hd). reflexivity.
  - apply OnData_unbound. congruence.
Qed.

Lemma OnEndOfAlgorithm_run (d : gmap string PyVal) :
  OnEndOfAlgorithm d =
  mkRun
    match d !! "_gotFineData" with
    | Some v => if truthy v then Ok tt
                else Raise (ValueError "Did not get any fine data in OnData!")
    | None => Raise (AttributeError "_gotFineData")
    end d [].
Proof.
  unfold OnEndOfAlgorithm, bind, getattr.
  destruct (d !! "_gotFineData") as [v|]; cbn [outcome attrs calls]; [| reflexivity].
  destruct (truthy v); reflexivity.
Qed.

(** ** Whole runs *)

Lemma existsb_Permutation {A} (f : A -> bool) (l l' : list A) :
  l ≡ₚ l' -> existsb f l = existsb f l'.
Proof.
  induction 1 as [| x l l' _ IH | x y l | l l' l'' _ IH1 _ IH2];
    cbn [existsb]; [reflexivity | | | congruence].
  - rewrite IH. reflexivity.
  - destruct (f x), (f y); reflexivity.
Qed.

Lemma fine_seen_Permutation (sym : Symbol) (e1 e2 : Event) :
  Get e1 FineFundamental ≡ₚ Get e2 FineFundamental ->
  fine_seen sym e1 = fine_seen sym e2.
Proof.
  intros Hp. unfold fine_seen, in_underlyings.
  rewrite (Permutation_length Hp). f_equal.
  apply existsb_Permutation. do 2 apply Permutation_map. exact Hp.
Qed.

Lemma same_event_calls (sec : Security) (e1 e2 : Event) :
  same_event sec e1 e2 -> event_calls sec e1 = event_calls sec e2.
Proof.
  intros (_ & Hinv & Hc). unfold event_calls, growth_above_threshold.
  rewrite Hinv, Hc. reflexivity.
Qed.

Lemma same_events_run (sec : Security) (evs1 evs2 : list Event) :
  Forall2 (same_event sec) evs1 evs2 ->
  existsb (fine_seen (Symbol_ sec)) evs1
  = existsb (fine_seen (Symbol_ sec)) evs2 /\
  flat_map (event_calls sec) evs1 = flat_map (event_calls sec) evs2.
Proof.
  induction 1 as [| e1 e2 evs1 evs2 He _ [IHs IHc]]; [split; reflexivity |].
  cbn [existsb flat_map].
  rewrite (fine_seen_Permutation _ e1 e2 (proj1 He)), IHs.
  rewrite (same_event_calls sec e1 e2 He), IHc. split; reflexivity.
Qed.

Lemma OnData_all_run (evs : list Event) (sec : Security) :
  forall d : gmap string PyVal,
    d !! "_aaplSecurity" = Some (VSecurity sec) ->
    OnData_all evs d =
    mkRun (Ok tt)
      (if existsb (fine_seen (Symbol_ sec)) evs
       then <["_gotFineData" := VBool true]> d else d)
      (flat_map (event_calls sec) evs).
Proof.
  induction evs as [| data evs IH]; intros d Hsec; [reflexivity |].
  cbn [OnData_all existsb flat_map]. unfold bind.
  rewrite (OnData_run data d sec Hsec). cbn [outcome attrs calls].
  destruct (fine_seen (Symbol_ sec) data); cbn [orb].
  - rewrite IH by (rewrite lookup_insert_ne; [exact Hsec | discriminate]).
    cbn [outcome attrs calls]. rewrite insert_insert_eq.
    destruct (existsb _ evs); reflexivity.
  - rewrite (IH d Hsec). reflexivity.
Qed.

(** The attribute dictionary the event handlers of a run start from and the
    one they leave. *)
Lemma backtest_run (h : Host) (evs : list Event) (d : gmap string PyVal) :
  let d0 := <["_aaplSecurity" := VSecurity (subscribed h)]> d in
  let d1 := if existsb (fine_seen (Symbol_ (subscribed h))) evs
            then <["_gotFineData" := VBool true]> d0 else d0 in
  backtest h evs d =
  if (Z.of_nat (length (requested_history h)) =? 0)%Z
  then mkRun (Raise (ValueError "Did not get any historical fine data!"))
         d0 (setup_calls h)
  else mkRun (outcome (OnEndOfAlgorithm d1)) d1
         (setup_calls h ++ flat_map (event_calls (subscribed h)) evs).
Proof.
  intros d0 d1. unfold backtest, bind. rewrite Initialize_run.
  cbn [outcome attrs calls].
  destruct (Z.of_nat _ =? 0)%Z; cbn [outcome attrs calls]; [reflexivity |].
  rewrite (OnData_all_run evs (subscribed h)) by apply lookup_insert_eq.
  cbn [outcome attrs calls]. fold d0. fold d1.
  rewrite OnEndOfAlgorithm_run. cbn [outcome attrs calls].
  rewrite !app_nil_r. reflexivity.
Qed.

Lemma directives_event_calls (sec : Security) (evs : list Event) :
  filter (fun c => is_SetHoldings c = true) (flat_map (event_calls sec) evs)
  = flat_map (event_calls sec) evs.
Proof.
  induction evs as [| data evs IH]; [reflexivity |].
  cbn [flat_map]. rewrite filter_app, IH. f_equal.
  unfold event_calls. destruct (_ && _); reflexivity.
Qed.

Lemma directives_backtest (h : Host) (evs : list Event) (d : gmap string PyVal) :
  directives (backtest h evs d) =
  if (Z.of_nat (length (requested_history h)) =? 0)%Z then []
  else flat_map (event_calls (subscribed h)) evs.
Proof.
  unfold directives. rewrite backtest_run.
  destruct (Z.of_nat _ =? 0)%Z; cbn [calls]; [reflexivity |].
  rewrite filter_app, directives_event_calls. reflexivity.
Qed.

Lemma existsb_fine_seen (sym : Symbol) (evs : list Event) :
  existsb (fine_seen sym) evs = true <->
  exists data, data ∈ evs /\ has_fine_for sym data.
Proof.
  rewrite existsb_exists. split; intros (data & Hin & Hf); exists data;
    (split; [apply list_elem_of_In, Hin | apply fine_seen_spec, Hf]).
Qed.

Lemma history_empty_test (h : Host) :
  (Z.of_nat (length (requested_history h)) =? 0)%Z = true <->
  requested_history h = [].
Proof.
  rewrite Z.eqb_eq. destruct (requested_history h); cbn [length]; split;
    intros H; try reflexivity; discriminate.
Qed.

(** Each callback leaves [_gotFineData] as it is or sets it to [True]. *)
Lemma invoke_flag (cb : Callback) (d : gmap string PyVal) :
  flag (invoke cb d) = d !! "_gotFineData" \/
  flag (invoke cb d) = Some (VBool true).
Proof.
  unfold flag. destruct cb as [h | data |]; cbn [invoke].
  - left. rewrite Initialize_run. cbn [attrs].
    rewrite lookup_insert_ne; [reflexivity | discriminate].
  - destruct (OnData_attrs data d) as [-> | ->]; [left; reflexivity |].
    right. apply lookup_insert_eq.
  - left. rewrite OnEndOfAlgorithm_run. reflexivity.
Qed.

(** ** The claims *)

(** C2. [Initialize] raises exactly when the history request for ten
    [FineFundamental] records comes back empty, and the exception is then the
    [ValueError] on missing historical fine data; with at least one record it
    returns normally. *)
Theorem Initialize_raises_iff_no_history (h : Host) (d : gmap string PyVal) :
  ((exists e, outcome (Initialize h d) = Raise e) <-> requested_history h = []) /\
  (requested_history h = [] <->
   outcome (Initialize h d)
   = Raise (ValueError "Did not get any historical fine data!")) /\
  (requested_history h <> [] <-> outcome (Initialize h d) = Ok tt).
Proof.
  rewrite Initialize_run. cbn [outcome].
  pose proof (history_empty_test h) as Ht.
  destruct (Z.of_nat _ =? 0)%Z.
  - assert (He : requested_history h = []) by (apply Ht; reflexivity).
    repeat split; intros; eauto; try discriminate; congruence.
  - assert (Hne : requested_history h <> [])
      by (intros He; apply Ht in He; discriminate).
    repeat split; intros; try reflexivity; try assumption; try discriminate;
      try contradiction.
    destruct H as [e He]; discriminate.
Qed.

(** C9. [Initialize] makes exactly these calls, in this order: start date
    2014-06-05, end date 2014-06-10, the equity "AAPL" at minute resolution,
    [FineFundamental] data for that equity's symbol, and one history request
    for 10 [FineFundamental] records under the symbol of the fine
    subscription. The equity is kept in [_aaplSecurity]. *)
Theorem Initialize_setup_steps (h : Host) (d : gmap string PyVal) :
  let aapl := AddEquity_result h "AAPL" Minute in
  let fine := AddData_result h FineFundamental (Symbol_ aapl) in
  calls (Initialize h d) =
    [SetStartDate 2014 6 5; SetEndDate 2014 6 10; AddEquity "AAPL" Minute;
     AddData FineFundamental (Symbol_ aapl);
     History FineFundamental (Symbol_ fine) 10] /\
  attrs (Initialize h d) !! "_aaplSecurity" = Some (VSecurity aapl).
Proof.
  intros aapl fine. rewrite Initialize_run. cbn [calls attrs]. split.
  - reflexivity.
  - apply lookup_insert_eq.
Qed.

(** C3. On an event at which the portfolio is not invested, [OnData] issues
    exactly one [SetHoldings("AAPL", 1)] if the cached fine-fundamental record
    exists and its one-year equity-per-share growth is strictly greater than
    0.01, and issues nothing otherwise. *)
Theorem OnData_allocates_iff_growth_above_threshold
    (data : Event) (d : gmap string PyVal) (sec : Security) :
  d !! "_aaplSecurity" = Some (VSecurity sec) ->
  Portfolio_Invested data = false ->
  let above := exists cachedFine,
      Cache_GetData data sec FineFundamental = Some cachedFine /\
      PrimFloat.ltb threshold (ratio cachedFine) = true in
  (calls (OnData data d) = [SetHoldings "AAPL" 1] <-> above) /\
  (~ above -> calls (OnData data d) = []).
Proof.
  intros Hsec Hinv above. subst above.
  rewrite (OnData_run data d sec Hsec). cbn [calls].
  unfold event_calls, growth_above_threshold. rewrite Hinv. cbn [negb andb].
  destruct (Cache_GetData data sec FineFundamental) as [f|].
  - destruct (PrimFloat.ltb threshold (ratio f)) eqn:Hlt.
    + split; [split; eauto |]. intros Hn. exfalso. apply Hn. eauto.
    + split; [| reflexivity]. split; [discriminate |].
      intros (f' & Hf & Hlt'). congruence.
  - split; [| reflexivity]. split; [discriminate |].
    intros (f' & Hf & _). discriminate.
Qed.

(** C4. When the cached record's ratio is exactly the float 0.01, [OnData]
    issues no call: the comparison is strict. *)
Theorem OnData_threshold_is_strict
    (data : Event) (d : gmap string PyVal) (sec : Security)
    (cachedFine : FineFundamentalData) :
  d !! "_aaplSecurity" = Some (VSecurity sec) ->
  Cache_GetData data sec FineFundamental = Some cachedFine ->
  ratio cachedFine = threshold ->
  calls (OnData data d) = [].
Proof.
  intros Hsec Hc Hr. rewrite (OnData_run data d sec Hsec). cbn [calls].
  unfold event_calls, growth_above_threshold. rewrite Hc, Hr.
  replace (PrimFloat.ltb threshold threshold) with false by reflexivity.
  rewrite andb_false_r. reflexivity.
Qed.

(** C5. When the portfolio is invested, [OnData] issues no call, whatever the
    attributes of the instance and whatever the cache holds. And at every
    event, invested or not, the calls of [OnData] depend on no attribute of
    the instance other than [_aaplSecurity]: in particular they are the same
    whether [_gotFineData] is absent or present, and whatever its value. *)
Theorem OnData_invested_issues_nothing (data : Event) (d : gmap string PyVal) :
  (Portfolio_Invested data = true -> calls (OnData data d) = []) /\
  (forall d' : gmap string PyVal,
      d' !! "_aaplSecurity" = d !! "_aaplSecurity" ->
      calls (OnData data d') = calls (OnData data d)) /\
  (forall v, calls (OnData data (<["_gotFineData" := v]> d))
             = calls (OnData data d)) /\
  calls (OnData data (delete "_gotFineData" d)) = calls (OnData data d).
Proof.
  rewrite !OnData_calls. split; [| split; [| split]].
  - intros Hinv. destruct (d !! "_aaplSecurity") as [[b|sec]|]; try reflexivity.
    unfold event_calls. rewrite Hinv. reflexivity.
  - intros d' Hsame. rewrite OnData_calls, Hsame. reflexivity.
  - intros v. rewrite OnData_calls.
    rewrite lookup_insert_ne; [reflexivity | discriminate].
  - rewrite lookup_delete_ne; [reflexivity | discriminate].
Qed.

(** C6. [OnData] sets [_gotFineData] to [True] exactly when the slice's
    fine-fundamental collection has an entry whose key's underlying is the
    symbol of the subscribed equity; otherwise it leaves every attribute, the
    flag included, as it was. *)
Theorem OnData_sets_flag_iff_fine_for_symbol
    (data : Event) (d : gmap string PyVal) (sec : Security) :
  d !! "_aaplSecurity" = Some (VSecurity sec) ->
  (has_fine_for (Symbol_ sec) data ->
   attrs (OnData data d) = <["_gotFineData" := VBool true]> d /\
   flag (OnData data d) = Some (VBool true)) /\
  (~ has_fine_for (Symbol_ sec) data ->
   attrs (OnData data d) = d /\
   flag (OnData data d) = d !! "_gotFineData").
Proof.
  intros Hsec. unfold flag. rewrite (OnData_run data d sec Hsec). cbn [attrs].
  pose proof (fine_seen_spec (Symbol_ sec) data) as Hs.
  destruct (fine_seen (Symbol_ sec) data).
  - split.
    + intros _. split; [reflexivity | apply lookup_insert_eq].
    + intros Hn. exfalso. apply Hn, Hs. reflexivity.
  - split.
    + intros Hf. apply Hs in Hf. discriminate.
    + intros _. split; reflexivity.
Qed.

(** C7. Once [_gotFineData] is [True] it stays [True] through any sequence
    of callbacks ([Initialize], [OnData], [OnEndOfAlgorithm]), raising or
    not. *)
Theorem gotFineData_is_monotonic (cbs : list Callback) (d : gmap string PyVal) :
  d !! "_gotFineData" = Some (VBool true) ->
  attrs_after cbs d !! "_gotFineData" = Some (VBool true).
Proof.
  revert d. induction cbs as [| cb cbs IH]; intros d Hd; [exact Hd |].
  cbn [attrs_after fold_left]. apply IH.
  destruct (invoke_flag cb d) as [H | H]; unfold flag in H; congruence.
Qed.

(** C8. The directives, the final [_gotFineData] and the way a run ends are
    determined by what the claim lists and by nothing else. Take two runs
    whose platforms return the same equity for "AAPL" and the same history,
    and whose events agree one by one on the delivered fine-fundamental
    entries, on the invested answer and on the cached record of that equity.
    The runs may differ in everything else: the order in which a slice
    enumerates its entries, what the cache holds for other securities, the
    symbol of the fine subscription, the other attributes of the instance.
    They issue the same [SetHoldings] directives, leave the same
    [_gotFineData] and end the same way. *)
Theorem backtest_is_deterministic
    (h1 h2 : Host) (evs1 evs2 : list Event) (d1 d2 : gmap string PyVal) :
  subscribed h1 = subscribed h2 ->
  requested_history h1 = requested_history h2 ->
  Forall2 (same_event (subscribed h1)) evs1 evs2 ->
  d1 !! "_gotFineData" = d2 !! "_gotFineData" ->
  directives (backtest h1 evs1 d1) = directives (backtest h2 evs2 d2) /\
  flag (backtest h1 evs1 d1) = flag (backtest h2 evs2 d2) /\
  outcome (backtest h1 evs1 d1) = outcome (backtest h2 evs2 d2).
Proof.
  intros Hs Hh Hev Hd.
  destruct (same_events_run _ _ _ Hev) as [Hseen Hcalls].
  assert (Hd0 : forall (sec : Security) (d : gmap string PyVal),
             <["_aaplSecurity" := VSecurity sec]> d !! "_gotFineData"
             = d !! "_gotFineData")
    by (intros; apply lookup_insert_ne; discriminate).
  rewrite !directives_backtest. unfold flag. rewrite !backtest_run.
  rewrite <- Hs, <- Hh, <- Hseen, <- Hcalls.
  destruct (Z.of_nat _ =? 0)%Z; cbn [attrs outcome].
  - rewrite !Hd0. auto.
  - rewrite !OnEndOfAlgorithm_run. cbn [outcome].
    destruct (existsb _ evs1).
    + rewrite !lookup_insert_eq. auto.
    + rewrite !Hd0, Hd. auto.
Qed.

(** C10. [Initialize] does not create [_gotFineData]; in a run whose history
    request succeeds the attribute exists at the end only if some event
    carried fine data for the subscribed equity. Without such an event
    [OnEndOfAlgorithm] fails on the read of the missing attribute, with an
    [AttributeError], and not with its own [ValueError]. *)
Theorem gotFineData_undefined_without_fine_event (h : Host) (evs : list Event) :
  requested_history h <> [] ->
  flag (Initialize h ∅) = None /\
  ((forall data, data ∈ evs -> ~ has_fine_for (Symbol_ (subscribed h)) data) ->
   flag (backtest h evs ∅) = None /\
   outcome (backtest h evs ∅) = Raise (AttributeError "_gotFineData")) /\
  ((exists data, data ∈ evs /\ has_fine_for (Symbol_ (subscribed h)) data) ->
   flag (backtest h evs ∅) = Some (VBool true) /\
   outcome (backtest h evs ∅) = Ok tt).
Proof.
  intros Hne. unfold flag. rewrite Initialize_run, backtest_run. cbn [attrs].
  assert (Hfresh : (<["_aaplSecurity" := VSecurity (subscribed h)]> ∅
                    : gmap string PyVal) !! "_gotFineData" = None)
    by (rewrite lookup_insert_ne; [apply lookup_empty | discriminate]).
  pose proof (history_empty_test h) as Ht.
  destruct (Z.of_nat _ =? 0)%Z; [exfalso; apply Hne, Ht; reflexivity |].
  pose proof (existsb_fine_seen (Symbol_ (subscribed h)) evs) as Hex.
  rewrite OnEndOfAlgorithm_run. cbn [outcome attrs].
  destruct (existsb _ evs).
  - split; [exact Hfresh |]. split.
    + intros Hnone. destruct Hex as [Hex _].
      destruct (Hex eq_refl) as (data & Hin & Hf). destruct (Hnone data Hin Hf).
    + intros _. rewrite lookup_insert_eq. split; reflexivity.
  - split; [exact Hfresh |]. split.
    + intros _. rewrite Hfresh. split; reflexivity.
    + intros Hsome. apply Hex in Hsome. discriminate.
Qed.

(** C1. In the run [quiet_events], where no event carries fine data for the
    subscribed equity, [OnEndOfAlgorithm] raises
    [AttributeError("_gotFineData")]; and in no run at all does the
    [ValueError] on missing streamed fine data come out. *)
Theorem OnEndOfAlgorithm_never_reports_missing_fine_data :
  outcome (backtest host0 quiet_events ∅)
  = Raise (AttributeError "_gotFineData") /\
  forall (h : Host) (evs : list Event),
    outcome (backtest h evs ∅)
    <> Raise (ValueError "Did not get any fine data in OnData!").
Proof.
  split; [reflexivity |]. intros h evs. rewrite backtest_run.
  destruct (Z.of_nat _ =? 0)%Z; cbn [outcome]; [discriminate |].
  rewrite OnEndOfAlgorithm_run. cbn [outcome].
  destruct (existsb _ evs).
  - rewrite lookup_insert_eq. discriminate.
  - rewrite lookup_insert_ne by discriminate. rewrite lookup_empty. discriminate.
Qed.

(** ** Instances of the statements *)

Lemma OnData_allocates_iff_growth_above_threshold_witness :
  started !! "_aaplSecurity" = Some (VSecurity aapl0) /\
  Portfolio_Invested (event0 [] false (Some 0.5%float)) = false /\
  calls (OnData (event0 [] false (Some 0.5%float)) started)
  = [SetHoldings "AAPL" 1].
Proof.
  split; [reflexivity |]. split; [reflexivity |].
  apply (OnData_allocates_iff_growth_above_threshold
           (event0 [] false (Some 0.5%float)) started aapl0);
    [reflexivity | reflexivity |].
  exists (record_with 0.5%float). split; reflexivity.
Defined.

Lemma OnData_threshold_is_strict_witness :
  started !! "_aaplSecurity" = Some (VSecurity aapl0) /\
  Cache_GetData (event0 [] false (Some threshold)) aapl0 FineFundamental
  = Some (record_with threshold) /\
  ratio (record_with threshold) = threshold /\
  calls (OnData (event0 [] false (Some threshold)) started) = [].
Proof.
  split; [reflexivity |]. split; [reflexivity |]. split; [reflexivity |].
  apply (OnData_threshold_is_strict
           (event0 [] false (Some threshold)) started aapl0
           (record_with threshold)); reflexivity.
Defined.

(** Invested: no call. Not invested, above the threshold and with
    [_gotFineData] already set: the order is placed all the same. *)
Lemma OnData_invested_issues_nothing_witness :
  Portfolio_Invested (event0 [] true (Some 0.5%float)) = true /\
  calls (OnData (event0 [] true (Some 0.5%float)) started) = [] /\
  calls (OnData (event0 [] false (Some 0.5%float))
           (<["_gotFineData" := VBool true]> started))
  = [SetHoldings "AAPL" 1].
Proof.
  split; [reflexivity |]. split.
  - destruct (OnData_invested_issues_nothing
                (event0 [] true (Some 0.5%float)) started) as (Hnone & _).
    apply Hnone. reflexivity.
  - destruct (OnData_invested_issues_nothing
                (event0 [] false (Some 0.5%float)) started)
      as (_ & _ & Hflag & _).
    rewrite (Hflag (VBool true)). reflexivity.
Defined.

Lemma OnData_sets_flag_iff_fine_for_symbol_witness :
  started !! "_aaplSecurity" = Some (VSecurity aapl0) /\
  flag (OnData (event0 [(fine0, record_with 0.5%float)] false None) started)
  = Some (VBool true).
Proof.
  split; [reflexivity |].
  apply (OnData_sets_flag_iff_fine_for_symbol
           (event0 [(fine0, record_with 0.5%float)] false None) started aapl0);
    [reflexivity |].
  exists fine0, (record_with 0.5%float). split; [| reflexivity].
  apply list_elem_of_here.
Defined.

Lemma gotFineData_is_monotonic_witness :
  (<["_gotFineData" := VBool true]> started : gmap string PyVal)
    !! "_gotFineData" = Some (VBool true) /\
  attrs_after
    [CbOnData (event0 [] false None); CbInitialize host0; CbOnEndOfAlgorithm]
    (<["_gotFineData" := VBool true]> started) !! "_gotFineData"
  = Some (VBool true).
Proof.
  split; [reflexivity |].
  apply (gotFineData_is_monotonic
           [CbOnData (event0 [] false None); CbInitialize host0;
            CbOnEndOfAlgorithm]
           (<["_gotFineData" := VBool true]> started)). reflexivity.
Defined.

(** Two platforms with different fine subscription symbols, two
    presentations of the same event, and a stale attribute on one instance
    only. *)
Lemma backtest_is_deterministic_witness :
  subscribed host0 = subscribed host1 /\
  requested_history host0 = requested_history host1 /\
  Forall2 (same_event (subscribed host0)) [replay_a] [replay_b] /\
  (∅ : gmap string PyVal) !! "_gotFineData"
  = (<["stale" := VBool false]> ∅ : gmap string PyVal) !! "_gotFineData" /\
  directives (backtest host0 [replay_a] ∅)
  = directives (backtest host1 [replay_b] (<["stale" := VBool false]> ∅)) /\
  directives (backtest host0 [replay_a] ∅) = [SetHoldings "AAPL" 1] /\
  flag (backtest host0 [replay_a] ∅) = Some (VBool true).
Proof.
  assert (Hev : Forall2 (same_event (subscribed host0)) [replay_a] [replay_b]).
  { constructor; [| constructor].
    split; [apply perm_swap | split; reflexivity]. }
  split; [reflexivity |]. split; [reflexivity |]. split; [exact Hev |].
  split; [reflexivity |]. split; [| split; reflexivity].
  apply (backtest_is_deterministic host0 host1 [replay_a] [replay_b]
           ∅ (<["stale" := VBool false]> ∅));
    [reflexivity | reflexivity | exact Hev | reflexivity].
Defined.

Lemma gotFineData_undefined_without_fine_event_witness :
  requested_history host0 <> [] /\
  flag (Initialize host0 ∅) = None /\
  outcome (backtest host0 quiet_events ∅)
  = Raise (AttributeError "_gotFineData").
Proof.
  assert (Hh : requested_history host0 <> []) by discriminate.
  destruct (gotFineData_undefined_without_fine_event host0 quiet_events Hh)
    as (Hinit & Hnone & _).
  split; [exact Hh |]. split; [exact Hinit |].
  apply Hnone. intros data Hin Hf. apply fine_seen_spec in Hf.
  apply elem_of_cons in Hin as [-> | Hin]; [discriminate |].
  apply elem_of_cons in Hin as [-> | Hin]; [discriminate |].
  inversion Hin.
Defined.

(** ** Further properties of the callbacks *)

Lemma event_calls_places_order (sec : Security) (evs : list Event) :
  flat_map (event_calls sec) evs =
  repeat (SetHoldings "AAPL" 1) (length (List.filter (places_order sec) evs)).
Proof.
  induction evs as [| data evs IH]; [reflexivity |].
  cbn [flat_map List.filter]. unfold event_calls at 1. fold (places_order sec data).
  destruct (places_order sec data); cbn [length repeat app]; congruence.
Qed.

(** X1. Once [_aaplSecurity] holds a security, no [OnData] raises, whatever
    the events are, and the attribute keeps that security. *)
Theorem OnData_returns_once_subscribed
    (evs : list Event) (d : gmap string PyVal) (sec : Security) :
  d !! "_aaplSecurity" = Some (VSecurity sec) ->
  outcome (OnData_all evs d) = Ok tt /\
  attrs (OnData_all evs d) !! "_aaplSecurity" = Some (VSecurity sec) /\
  forall data, outcome (OnData data d) = Ok tt /\
               attrs (OnData data d) !! "_aaplSecurity" = Some (VSecurity sec).
Proof.
  intros Hsec.
  assert (Hset : <["_gotFineData" := VBool true]> d !! "_aaplSecurity"
                 = Some (VSecurity sec))
    by (rewrite lookup_insert_ne; [exact Hsec | discriminate]).
  rewrite (OnData_all_run evs sec d Hsec). cbn [outcome attrs].
  split; [reflexivity |]. split.
  - destruct (existsb _ evs); assumption.
  - intros data. rewrite (OnData_run data d sec Hsec). cbn [outcome attrs].
    split; [reflexivity |]. destruct (fine_seen _ _); assumption.
Qed.

(** X2. On an instance on which [_aaplSecurity] was never set, [OnData]
    raises [AttributeError("_aaplSecurity")] as soon as the slice has a
    fine-fundamental entry or the portfolio is not invested; with an empty
    fine collection and an invested portfolio the attribute is never read and
    the handler returns. Either way no attribute changes and no call is
    made. *)
Theorem OnData_without_subscription (data : Event) (d : gmap string PyVal) :
  d !! "_aaplSecurity" = None ->
  attrs (OnData data d) = d /\
  calls (OnData data d) = [] /\
  (Get data FineFundamental <> [] \/ Portfolio_Invested data = false ->
   outcome (OnData data d) = Raise (AttributeError "_aaplSecurity")) /\
  (Get data FineFundamental = [] -> Portfolio_Invested data = true ->
   outcome (OnData data d) = Ok tt).
Proof.
  intros Hd.
  destruct (OnData_unbound data d) as [Ha Hc]; [congruence |].
  split; [exact Ha |]. split; [exact Hc |].
  unfold OnData, bind, getattr.
  destruct (Get data FineFundamental) as [| kv fine];
    [replace (0 <? Z.of_nat (length (@nil (Symbol * FineFundamentalData))))%Z
       with false by reflexivity
    |replace (0 <? Z.of_nat (length (kv :: fine)))%Z with true by reflexivity];
    destruct (Portfolio_Invested data);
    cbn [negb outcome attrs calls member ret raise app setattr];
    rewrite ?Hd;
    cbn [outcome attrs calls member ret raise app setattr];
    split; intros H1; try intros H2; try reflexivity; try discriminate.
  destruct H1 as [H1 | H1]; [contradiction | discriminate].
Qed.

(** X3. [OnEndOfAlgorithm] only reads: it changes no attribute and makes no
    call. It returns when [_gotFineData] is present and truthy, raises its
    [ValueError] when the attribute is present and falsy, and raises
    [AttributeError] when the attribute is missing. *)
Theorem OnEndOfAlgorithm_outcomes (d : gmap string PyVal) :
  attrs (OnEndOfAlgorithm d) = d /\
  calls (OnEndOfAlgorithm d) = [] /\
  (outcome (OnEndOfAlgorithm d) = Ok tt <->
   exists v, d !! "_gotFineData" = Some v /\ truthy v = true) /\
  (outcome (OnEndOfAlgorithm d)
   = Raise (ValueError "Did not get any fine data in OnData!") <->
   exists v, d !! "_gotFineData" = Some v /\ truthy v = false) /\
  (outcome (OnEndOfAlgorithm d) = Raise (AttributeError "_gotFineData") <->
   d !! "_gotFineData" = None).
Proof.
  rewrite OnEndOfAlgorithm_run. cbn [outcome attrs calls].
  split; [reflexivity |]. split; [reflexivity |].
  destruct (d !! "_gotFineData") as [v|].
  - destruct (truthy v) eqn:Hv; repeat split; intros H;
      try discriminate; eauto;
      destruct H as (v' & Hv' & Ht); congruence.
  - repeat split; intros H; try discriminate; try reflexivity;
      destruct H as (v' & Hv' & _); discriminate.
Qed.

(** X4. Each callback writes at most its own attribute: [Initialize] only
    [_aaplSecurity], [OnData] only [_gotFineData], [OnEndOfAlgorithm]
    none. *)
Theorem callbacks_frame (h : Host) (data : Event) (d : gmap string PyVal) :
  (forall k, k <> "_aaplSecurity" -> attrs (Initialize h d) !! k = d !! k) /\
  (forall k, k <> "_gotFineData" -> attrs (OnData data d) !! k = d !! k) /\
  attrs (OnEndOfAlgorithm d) = d.
Proof.
  split; [| split].
  - intros k Hk. rewrite Initialize_run. cbn [attrs].
    apply lookup_insert_ne. congruence.
  - intros k Hk. destruct (OnData_attrs data d) as [-> | ->]; [reflexivity |].
    apply lookup_insert_ne. congruence.
  - rewrite OnEndOfAlgorithm_run. reflexivity.
Qed.

(** X5. The order decision of [OnData] does not look at the slice: two
    events with the same invested answer and the same cache content lead to
    the same calls, whatever fine data their slices carry. *)
Theorem OnData_calls_ignore_slice (data data' : Event) (d : gmap string PyVal) :
  Portfolio_Invested data = Portfolio_Invested data' ->
  (forall sec, Cache_GetData data sec FineFundamental
               = Cache_GetData data' sec FineFundamental) ->
  calls (OnData data d) = calls (OnData data' d).
Proof.
  intros Hinv Hcache. rewrite !OnData_calls.
  destruct (d !! "_aaplSecurity") as [[b|sec]|]; try reflexivity.
  unfold event_calls, growth_above_threshold. rewrite Hinv, (Hcache sec).
  reflexivity.
Qed.

(** X6. The flag update of [OnData] does not look at the portfolio or the
    cache: two events with the same fine-fundamental collection leave the
    same attributes, whether invested or not. *)
Theorem OnData_attrs_ignore_portfolio
    (data data' : Event) (d : gmap string PyVal) :
  Get data FineFundamental = Get data' FineFundamental ->
  attrs (OnData data d) = attrs (OnData data' d).
Proof.
  intros Hget. destruct (d !! "_aaplSecurity") as [[b|sec]|] eqn:Hd.
  - destruct (OnData_unbound data d) as [-> _]; [congruence |].
    destruct (OnData_unbound data' d) as [-> _]; [congruence | reflexivity].
  - rewrite (OnData_run data d sec Hd), (OnData_run data' d sec Hd).
    cbn [attrs]. unfold fine_seen. rewrite Hget. reflexivity.
  - destruct (OnData_unbound data d) as [-> _]; [congruence |].
    destruct (OnData_unbound data' d) as [-> _]; [congruence | reflexivity].
Qed.

(** X7. The script keeps no record of its own orders: over a sequence of
    events it issues one [SetHoldings("AAPL", 1)] for every event at which
    the portfolio reports not invested and the cached growth is above the
    threshold, and nothing else. *)
Theorem OnData_all_orders_every_qualifying_event
    (evs : list Event) (d : gmap string PyVal) (sec : Security) :
  d !! "_aaplSecurity" = Some (VSecurity sec) ->
  calls (OnData_all evs d) =
  repeat (SetHoldings "AAPL" 1) (length (List.filter (places_order sec) evs)).
Proof.
  intros Hsec. rewrite (OnData_all_run evs sec d Hsec). cbn [calls].
  apply event_calls_places_order.
Qed.

(** X8. The attributes left by a sequence of events do not depend on the
    order of the events, and replaying the sequence changes nothing more. *)
Theorem OnData_all_attrs_order_insensitive
    (evs evs' : list Event) (d : gmap string PyVal) (sec : Security) :
  d !! "_aaplSecurity" = Some (VSecurity sec) ->
  evs ≡ₚ evs' ->
  attrs (OnData_all evs d) = attrs (OnData_all evs' d) /\
  attrs (OnData_all evs (attrs (OnData_all evs d))) = attrs (OnData_all evs d).
Proof.
  intros Hsec Hperm.
  assert (Hset : <["_gotFineData" := VBool true]> d !! "_aaplSecurity"
                 = Some (VSecurity sec))
    by (rewrite lookup_insert_ne; [exact Hsec | discriminate]).
  rewrite (OnData_all_run evs sec d Hsec), (OnData_all_run evs' sec d Hsec).
  cbn [attrs]. rewrite (existsb_Permutation _ _ _ Hperm). split; [reflexivity |].
  destruct (existsb (fine_seen (Symbol_ sec)) evs') eqn:Hex.
  - rewrite (OnData_all_run evs sec _ Hset). cbn [attrs].
    rewrite (existsb_Permutation _ _ _ Hperm), Hex.
    apply insert_insert_eq.
  - rewrite (OnData_all_run evs sec d Hsec). cbn [attrs].
    rewrite (existsb_Permutation _ _ _ Hperm), Hex. reflexivity.
Qed.

(** X9. A cached record whose ratio is not a number places no order: the
    comparison with 0.01 is false. *)
Theorem OnData_nan_ratio_places_no_order
    (data : Event) (d : gmap string PyVal) (sec : Security)
    (cachedFine : FineFundamentalData) :
  d !! "_aaplSecurity" = Some (VSecurity sec) ->
  Cache_GetData data sec FineFundamental = Some cachedFine ->
  ratio cachedFine = PrimFloat.nan ->
  calls (OnData data d) = [].
Proof.
  intros Hsec Hc Hr. rewrite (OnData_run data d sec Hsec). cbn [calls].
  unfold event_calls, growth_above_threshold. rewrite Hc, Hr.
  replace (PrimFloat.ltb threshold PrimFloat.nan) with false by reflexivity.
  rewrite andb_false_r. reflexivity.
Qed.

(** X10. Only the [Underlying] of a key is compared: a slice whose
    fine-fundamental keys have no underlying symbol (the empty collection
    included) leaves every attribute as it was. *)
Theorem OnData_keys_without_underlying_never_match
    (data : Event) (d : gmap string PyVal) :
  (forall k v, (k, v) ∈ Get data FineFundamental -> Underlying k = None) ->
  attrs (OnData data d) = d.
Proof.
  intros Hkeys. destruct (d !! "_aaplSecurity") as [[b|sec]|] eqn:Hd;
    [apply OnData_unbound; congruence | | apply OnData_unbound; congruence].
  rewrite (OnData_run data d sec Hd). cbn [attrs].
  destruct (fine_seen (Symbol_ sec) data) eqn:Hs; [| reflexivity].
  apply fine_seen_spec in Hs as (k & v & Hin & Hu).
  rewrite (Hkeys k v Hin) in Hu. discriminate.
Qed.

(** X11. Whatever the instance and the event, [OnData] makes no call or the
    single call [SetHoldings("AAPL", 1)]: ticker and fraction never depend on
    the data. *)
Theorem OnData_calls_at_most_one (data : Event) (d : gmap string PyVal) :
  calls (OnData data d) = [] \/ calls (OnData data d) = [SetHoldings "AAPL" 1].
Proof.
  rewrite OnData_calls.
  destruct (d !! "_aaplSecurity") as [[b|sec]|]; auto.
  unfold event_calls. destruct (_ && _); auto.
Qed.

(** ** Instances of the further properties *)

Lemma OnData_returns_once_subscribed_witness :
  started !! "_aaplSecurity" = Some (VSecurity aapl0) /\
  outcome (OnData_all quiet_events started) = Ok tt.
Proof.
  split; [reflexivity |].
  apply (OnData_returns_once_subscribed quiet_events started aapl0).
  reflexivity.
Defined.

Lemma OnData_without_subscription_witness :
  (∅ : gmap string PyVal) !! "_aaplSecurity" = None /\
  outcome (OnData (event0 [] true None) ∅) = Ok tt /\
  outcome (OnData (event0 [] false None) ∅)
  = Raise (AttributeError "_aaplSecurity").
Proof.
  split; [reflexivity |]. split.
  - apply (OnData_without_subscription (event0 [] true None) ∅);
      reflexivity.
  - apply (OnData_without_subscription (event0 [] false None) ∅);
      [reflexivity | right; reflexivity].
Defined.

Lemma OnData_calls_ignore_slice_witness :
  Portfolio_Invested (event0 [] false (Some 0.5%float))
  = Portfolio_Invested
      (event0 [(fine0, record_with 0.5%float)] false (Some 0.5%float)) /\
  calls (OnData (event0 [] false (Some 0.5%float)) started)
  = calls (OnData (event0 [(fine0, record_with 0.5%float)] false
                     (Some 0.5%float)) started).
Proof.
  split; [reflexivity |].
  apply (OnData_calls_ignore_slice
           (event0 [] false (Some 0.5%float))
           (event0 [(fine0, record_with 0.5%float)] false (Some 0.5%float))
           started); [reflexivity | intros sec; reflexivity].
Defined.

Lemma OnData_attrs_ignore_portfolio_witness :
  Get (event0 [(fine0, record_with 0.5%float)] false None) FineFundamental
  = Get (event0 [(fine0, record_with 0.5%float)] true (Some 0.5%float))
      FineFundamental /\
  attrs (OnData (event0 [(fine0, record_with 0.5%float)] false None) started)
  = attrs (OnData (event0 [(fine0, record_with 0.5%float)] true
                     (Some 0.5%float)) started).
Proof.
  split; [reflexivity |].
  apply (OnData_attrs_ignore_portfolio
           (event0 [(fine0, record_with 0.5%float)] false None)
           (event0 [(fine0, record_with 0.5%float)] true (Some 0.5%float))
           started). reflexivity.
Defined.

Lemma OnData_all_orders_every_qualifying_event_witness :
  started !! "_aaplSecurity" = Some (VSecurity aapl0) /\
  calls (OnData_all [event0 [] false (Some 0.5%float);
                     event0 [] true (Some 0.5%float);
                     event0 [] false (Some 0.5%float)] started)
  = [SetHoldings "AAPL" 1; SetHoldings "AAPL" 1].
Proof.
  split; [reflexivity |].
  apply (OnData_all_orders_every_qualifying_event
           [event0 [] false (Some 0.5%float);
            event0 [] true (Some 0.5%float);
            event0 [] false (Some 0.5%float)] started aapl0). reflexivity.
Defined.

Lemma OnData_all_attrs_order_insensitive_witness :
  started !! "_aaplSecurity" = Some (VSecurity aapl0) /\
  [event0 [] false None; event0 [(fine0, record_with 0.5%float)] false None]
  ≡ₚ [event0 [(fine0, record_with 0.5%float)] false None;
      event0 [] false None] /\
  attrs (OnData_all [event0 [] false None;
                     event0 [(fine0, record_with 0.5%float)] false None]
           started)
  = attrs (OnData_all [event0 [(fine0, record_with 0.5%float)] false None;
                       event0 [] false None] started).
Proof.
  split; [reflexivity |]. split; [apply perm_swap |].
  apply (OnData_all_attrs_order_insensitive
           [event0 [] false None;
            event0 [(fine0, record_with 0.5%float)] false None]
           [event0 [(fine0, record_with 0.5%float)] false None;
            event0 [] false None] started aapl0);
    [reflexivity | apply perm_swap].
Defined.

Lemma OnData_nan_ratio_places_no_order_witness :
  started !! "_aaplSecurity" = Some (VSecurity aapl0) /\
  Cache_GetData (event0 [] false (Some PrimFloat.nan)) aapl0 FineFundamental
  = Some (record_with PrimFloat.nan) /\
  ratio (record_with PrimFloat.nan) = PrimFloat.nan /\
  calls (OnData (event0 [] false (Some PrimFloat.nan)) started) = [].
Proof.
  split; [reflexivity |]. split; [reflexivity |]. split; [reflexivity |].
  apply (OnData_nan_ratio_places_no_order
           (event0 [] false (Some PrimFloat.nan)) started aapl0
           (record_with PrimFloat.nan)); reflexivity.
Defined.

Lemma OnData_keys_without_underlying_never_match_witness :
  (forall k v,
      (k, v) ∈ Get (event0 [(Symbol_ aapl0, record_with 0.5%float)] false None)
                 FineFundamental ->
      Underlying k = None) /\
  attrs (OnData (event0 [(Symbol_ aapl0, record_with 0.5%float)] false None)
           started) = started.
Proof.
  assert (Hkeys : forall k v,
             (k, v) ∈ Get (event0 [(Symbol_ aapl0, record_with 0.5%float)]
                             false None) FineFundamental ->
             Underlying k = None).
  { intros k v Hin. apply elem_of_cons in Hin as [Heq | Hin];
      [inversion Heq; reflexivity | inversion Hin]. }
  split; [exact Hkeys |].
  apply (OnData_keys_without_underlying_never_match
           (event0 [(Symbol_ aapl0, record_with 0.5%float)] false None)
           started Hkeys).
Defined.
